(** * A shallow embedding of [python/pdf_service.py]

    The PDF parsing service of LocalRAG: a module-level selection of a
    PDF library ([PDF_LIBRARY]), the text extraction adapter
    ([extract_text_pypdf], [extract_text_pdfplumber], [extract_text])
    and the HTTP handler ([PDFHandler.do_GET], [PDFHandler.do_POST],
    [PDFHandler._send_json]).

    Python values are embedded as follows.
    - A [str] is the list of its Unicode code points.
    - A [bytes] object is a list of [byte].
    - A [dict] with string keys is an association list in insertion
      order, the order in which [json.dumps] writes the items.
    - A computation that may raise and that acts on the streams of the
      connection and on the logger is a function from [State] to an
      [outcome] and a new [State]. *)

From Stdlib Require Import List Bool NArith ZArith Lia.
From Stdlib.Strings Require Import String Ascii Byte.
From Stdlib Require Import DecimalString.
Import ListNotations.

Local Open Scope list_scope.
Local Open Scope N_scope.

(* ================================================================= *)
(** ** Python strings *)

Module Str.

(** A Python [str]: its code points, in order. *)
Definition str := list N.

(** The [str] written by an ASCII literal of the source. *)
Definition lit (s : string) : str :=
  map N_of_ascii (list_ascii_of_string s).

Fixpoint eqb (a b : str) : bool :=
  match a, b with
  | [], [] => true
  | x :: a', y :: b' => (x =? y) && eqb a' b'
  | _, _ => false
  end.

(** [len(s)] *)
Definition len (s : str) : Z := Z.of_nat (List.length s).

(** [str.isspace] on one character: the code points that CPython's
    [_PyUnicode_IsWhitespace] accepts. *)
Definition isspace (c : N) : bool :=
  ((0x09 <=? c) && (c <=? 0x0D))
  || ((0x1C <=? c) && (c <=? 0x20))
  || (c =? 0x85) || (c =? 0xA0) || (c =? 0x1680)
  || ((0x2000 <=? c) && (c <=? 0x200A))
  || (c =? 0x2028) || (c =? 0x2029) || (c =? 0x202F)
  || (c =? 0x205F) || (c =? 0x3000).

Fixpoint lstrip (s : str) : str :=
  match s with
  | [] => []
  | c :: r => if isspace c then lstrip r else s
  end.

Definition rstrip (s : str) : str := rev (lstrip (rev s)).

(** [s.strip()] *)
Definition strip (s : str) : str := rstrip (lstrip s).

(** [sep.join(parts)] *)
Fixpoint join (sep : str) (parts : list str) : str :=
  match parts with
  | [] => []
  | p :: rest =>
      match rest with
      | [] => p
      | _ :: _ => p ++ sep ++ join sep rest
      end
  end.

(** [s.lower()] on the ASCII letters.  Header field names are tokens
    of printable ASCII characters, the only strings the service
    lowers. *)
Definition lower_char (c : N) : N :=
  if (0x41 <=? c) && (c <=? 0x5A) then c + 0x20 else c.

Definition lower (s : str) : str := map lower_char s.

(** Truth value of a string: non-empty. *)
Definition truthy (s : str) : bool :=
  match s with [] => false | _ :: _ => true end.

End Str.

Import Str.

(* ================================================================= *)
(** ** Exceptions and outcomes *)

(** An instance of [Exception]: its class name and [str(e)].  These are
    the exceptions that [except Exception] of [extract_text] ranges
    over. *)
Inductive exn : Type :=
| Exn (cls : string) (msg : str).

(** [str(e)] *)
Definition exn_str (e : exn) : str :=
  match e with Exn _ msg => msg end.

Definition exn_class (e : exn) : string :=
  match e with Exn cls _ => cls end.

Inductive outcome (A : Type) : Type :=
| Return (a : A)
| Raise (e : exn).

Arguments Return {A} a.
Arguments Raise {A} e.

Definition bytes := list byte.

(* ================================================================= *)
(** ** Values, dictionaries and JSON *)

(** The values the service stores in a result dictionary or passes to
    [int]. *)
Inductive value : Type :=
| VNone
| VInt (z : Z)
| VStr (s : str).

(** Truth value of an object: [None], [0] and [""] are false. *)
Definition value_truthy (v : value) : bool :=
  match v with
  | VNone => false
  | VInt z => negb (Z.eqb z 0)
  | VStr s => truthy s
  end.

(** A [dict] with [str] keys, items in insertion order. *)
Definition dict := list (str * value).

(** [key in d] *)
Definition dict_contains (key : str) (d : dict) : bool :=
  existsb (fun kv => eqb (fst kv) key) d.

Fixpoint dict_lookup (key : str) (d : dict) : option value :=
  match d with
  | [] => None
  | (k, v) :: r => if eqb k key then Some v else dict_lookup key r
  end.

(** [d[key]] *)
Definition dict_getitem (key : str) (d : dict) : outcome value :=
  match dict_lookup key d with
  | Some v => Return v
  | None => Raise (Exn "KeyError" (lit "'" ++ key ++ lit "'"))
  end.

Definition dict_keys (d : dict) : list str := map fst d.

(** The decimal numeral of an integer, as [str(n)] and [json.dumps]
    print it. *)
Definition str_of_int (z : Z) : str :=
  lit (NilZero.string_of_int (Z.to_int z)).

(** [str(v)], as an f-string formats a value. *)
Definition str_of_value (v : value) : str :=
  match v with
  | VNone => lit "None"
  | VInt z => str_of_int z
  | VStr s => s
  end.

Module Json.

Definition hex_digit (n : N) : N :=
  if n <? 10 then 0x30 + n else 0x57 + n.

(** ['\\u{0:04x}'.format(n)] *)
Definition u_escape (n : N) : str :=
  [0x5C; 0x75;
   hex_digit (N.shiftr n 12 mod 16); hex_digit (N.shiftr n 8 mod 16);
   hex_digit (N.shiftr n 4 mod 16); hex_digit (n mod 16)].

(** One character of a string under [ensure_ascii=True]
    ([json.encoder.py_encode_basestring_ascii]). *)
Definition escape_char (c : N) : str :=
  if c =? 0x22 then [0x5C; 0x22]
  else if c =? 0x5C then [0x5C; 0x5C]
  else if c =? 0x0A then [0x5C; 0x6E]
  else if c =? 0x0D then [0x5C; 0x72]
  else if c =? 0x09 then [0x5C; 0x74]
  else if c =? 0x08 then [0x5C; 0x62]
  else if c =? 0x0C then [0x5C; 0x66]
  else if (0x20 <=? c) && (c <=? 0x7E) then [c]
  else if c <? 0x10000 then u_escape c
  else
    let n := c - 0x10000 in
    let s1 := N.lor 0xD800 (N.land (N.shiftr n 10) 0x3FF) in
    let s2 := N.lor 0xDC00 (N.land n 0x3FF) in
    u_escape s1 ++ u_escape s2.

Definition dumps_str (s : str) : str :=
  [0x22] ++ flat_map escape_char s ++ [0x22].

Definition dumps_value (v : value) : str :=
  match v with
  | VNone => lit "null"
  | VInt z => str_of_int z
  | VStr s => dumps_str s
  end.

Definition dumps_item (kv : str * value) : str :=
  dumps_str (fst kv) ++ lit ": " ++ dumps_value (snd kv).

(** [json.dumps(d)] with the default separators. *)
Definition dumps (d : dict) : str :=
  lit "{" ++ join (lit ", ") (map dumps_item d) ++ lit "}".

End Json.

(* ================================================================= *)
(** ** [str.encode()] and [int(...)] *)

Definition byte_of (n : N) : byte :=
  match Byte.of_N n with Some b => b | None => x00 end.

(** UTF-8 of one code point; [None] for a surrogate, which the strict
    error handler of [encode] rejects. *)
Definition encode_char (c : N) : option bytes :=
  if c <? 0x80 then Some [byte_of c]
  else if c <? 0x800 then
    Some [byte_of (N.lor 0xC0 (N.shiftr c 6));
          byte_of (N.lor 0x80 (N.land c 0x3F))]
  else if (0xD800 <=? c) && (c <=? 0xDFFF) then None
  else if c <? 0x10000 then
    Some [byte_of (N.lor 0xE0 (N.shiftr c 12));
          byte_of (N.lor 0x80 (N.land (N.shiftr c 6) 0x3F));
          byte_of (N.lor 0x80 (N.land c 0x3F))]
  else
    Some [byte_of (N.lor 0xF0 (N.land (N.shiftr c 18) 0x07));
          byte_of (N.lor 0x80 (N.land (N.shiftr c 12) 0x3F));
          byte_of (N.lor 0x80 (N.land (N.shiftr c 6) 0x3F));
          byte_of (N.lor 0x80 (N.land c 0x3F))].

(** [s.encode()].  The message of the error is abbreviated to its
    reason. *)
Fixpoint encode (s : str) : outcome bytes :=
  match s with
  | [] => Return []
  | c :: r =>
      match encode_char c with
      | None => Raise (Exn "UnicodeEncodeError" (lit "surrogates not allowed"))
      | Some bs =>
          match encode r with
          | Return rest => Return (bs ++ rest)
          | Raise e => Raise e
          end
      end
  end.

(** [repr(s)] of a string of printable characters without quote or
    backslash. *)
Definition quote (s : str) : str := lit "'" ++ s ++ lit "'".

Definition is_digit (c : N) : bool := (0x30 <=? c) && (c <=? 0x39).

(** The digits of a decimal literal: at least one digit, single
    underscores only between digits.  Returns the value and the number
    of digits. *)
Fixpoint scan_digits (s : str) (prev_digit : bool) (acc : N) (count : nat)
  : option (N * nat) :=
  match s with
  | [] => if prev_digit then Some (acc, count) else None
  | c :: r =>
      if is_digit c then scan_digits r true (10 * acc + (c - 0x30)) (S count)
      else if (c =? 0x5F) && prev_digit then scan_digits r false acc count
      else None
  end.

(** The default of [sys.get_int_max_str_digits()]. *)
Definition max_str_digits : nat := 4300.

(** [int(s)] for a string [s] in base 10: surrounding whitespace is
    ignored, one sign is allowed.  Header values are decoded from
    ISO-8859-1, a range with no decimal digit outside ASCII. *)
Definition int_of_str (s : str) : outcome Z :=
  let invalid :=
    Raise (Exn "ValueError"
             (lit "invalid literal for int() with base 10: " ++ quote s)) in
  let t := strip s in
  let '(negative, digits) :=
    match t with
    | 0x2D :: r => (true, r)
    | 0x2B :: r => (false, r)
    | _ => (false, t)
    end in
  match scan_digits digits false 0 0 with
  | None => invalid
  | Some (n, count) =>
      if Nat.ltb max_str_digits count then
        Raise (Exn "ValueError"
                 (lit "Exceeds the limit (4300 digits) for integer string conversion: value has "
                  ++ str_of_int (Z.of_nat count)
                  ++ lit " digits; use sys.set_int_max_str_digits() to increase the limit"))
      else Return (if negative then Z.opp (Z.of_N n) else Z.of_N n)
  end.

(** [int(v)] *)
Definition py_int (v : value) : outcome Z :=
  match v with
  | VInt z => Return z
  | VStr s => int_of_str s
  | VNone =>
      Raise (Exn "TypeError"
               (lit "int() argument must be a string, a bytes-like object or a real number, not 'NoneType'"))
  end.

(** [len(v)] *)
Definition py_len (v : value) : outcome Z :=
  match v with
  | VStr s => Return (len s)
  | VInt _ => Raise (Exn "TypeError" (lit "object of type 'int' has no len()"))
  | VNone => Raise (Exn "TypeError" (lit "object of type 'NoneType' has no len()"))
  end.

(* ================================================================= *)
(** ** The state of the process and of a connection *)

(** What the handler sends through [BaseHTTPRequestHandler]. *)
Inductive wire_event : Type :=
| SendResponse (status : Z)
| SendHeader (keyword val : str)
| EndHeaders
| WfileWrite (data : bytes).

(** [rfile] is the unread part of the request stream and [wire] what
    was sent on the connection so far; [log] holds the records that the
    module and the handler methods give to [logger] (the access records
    that the base class writes through [log_message] are left out).  [adapter_calls] and [library_calls] record, in order, the
    arguments of every call of [extract_text] and of every attempt to
    open a document with a PDF library. *)
Record State : Type := mkState {
  rfile : bytes;
  wire : list wire_event;
  log : list str;
  adapter_calls : list bytes;
  library_calls : list (str * bytes)
}.

Definition M (A : Type) : Type := State -> outcome A * State.

Definition ret {A} (a : A) : M A := fun st => (Return a, st).

Definition raise {A} (e : exn) : M A := fun st => (Raise e, st).

Definition bind {A B} (m : M A) (k : A -> M B) : M B :=
  fun st =>
    match m st with
    | (Return a, st') => k a st'
    | (Raise e, st') => (Raise e, st')
    end.

(** [try: m  except Exception as e: handler e] *)
Definition try_except {A} (m : M A) (handler : exn -> M A) : M A :=
  fun st =>
    match m st with
    | (Return a, st') => (Return a, st')
    | (Raise e, st') => handler e st'
    end.

Definition lift {A} (o : outcome A) : M A := fun st => (o, st).

Declare Scope py_scope.
Delimit Scope py_scope with py.

Notation "x <- m ;; k" := (bind m (fun x => k))
  (at level 100, m at next level, right associativity) : py_scope.
Notation "m ;; k" := (bind m (fun _ => k))
  (at level 100, right associativity) : py_scope.

Local Open Scope py_scope.

(** [read(n)] on a buffered stream: up to [n] bytes, everything up to
    the end of the stream when [n] is [-1]; and the bytes left unread. *)
Definition read_prefix (n : Z) (stream : bytes) : bytes :=
  firstn (if Z.ltb n 0 then List.length stream else Z.to_nat n) stream.

Definition read_rest (n : Z) (stream : bytes) : bytes :=
  skipn (if Z.ltb n 0 then List.length stream else Z.to_nat n) stream.

(** [self.rfile.read(n)].  The buffered reader refuses a length below
    [-1]. *)
Definition rfile_read (n : Z) : M bytes :=
  fun st =>
    if Z.ltb n (-1) then
      (Raise (Exn "ValueError" (lit "read length must be non-negative or -1")),
       st)
    else
      (Return (read_prefix n (rfile st)),
       mkState (read_rest n (rfile st)) (wire st) (log st)
               (adapter_calls st) (library_calls st)).

Definition emit (ev : wire_event) : M unit :=
  fun st =>
    (Return tt,
     mkState (rfile st) (wire st ++ [ev]) (log st)
             (adapter_calls st) (library_calls st)).

Definition send_response (status : Z) : M unit := emit (SendResponse status).
Definition send_header (keyword val : str) : M unit := emit (SendHeader keyword val).
Definition end_headers : M unit := emit EndHeaders.
Definition wfile_write (data : bytes) : M unit := emit (WfileWrite data).

(** [logger.info(msg)] *)
Definition logger_info (msg : str) : M unit :=
  fun st =>
    (Return tt,
     mkState (rfile st) (wire st) (log st ++ [msg])
             (adapter_calls st) (library_calls st)).

Definition note_adapter_call (pdf_bytes : bytes) : M unit :=
  fun st =>
    (Return tt,
     mkState (rfile st) (wire st) (log st)
             (adapter_calls st ++ [pdf_bytes]) (library_calls st)).

Definition note_library_call (name : str) (pdf_bytes : bytes) : M unit :=
  fun st =>
    (Return tt,
     mkState (rfile st) (wire st) (log st)
             (adapter_calls st) (library_calls st ++ [(name, pdf_bytes)])).

(* ================================================================= *)
(** ** The PDF libraries and their selection *)

(** A page of an opened document: what [page.extract_text()] does.
    [None] is the [None] that pdfplumber returns for a page without
    characters. *)
Record Page : Type := mkPage {
  page_extract_text : outcome (option str)
}.

(** A PDF library: opening the bytes either raises or gives the pages
    of the document ([reader.pages], [pdf.pages]). *)
Record Library : Type := mkLibrary {
  open_document : bytes -> outcome (list Page)
}.

(** The modules that can be imported when the service starts. *)
Record Env : Type := mkEnv {
  pypdf : option Library;
  pdfplumber : option Library
}.

(** Lines 16-25: the selection made when the module is loaded. *)
Definition PDF_LIBRARY (env : Env) : option str :=
  match pypdf env with
  | Some _ => Some (lit "pypdf")
  | None =>
      match pdfplumber env with
      | Some _ => Some (lit "pdfplumber")
      | None => None
      end
  end.

(** The log of a freshly started process: the warning of line 25. *)
Definition startup_log (env : Env) : list str :=
  match PDF_LIBRARY env with
  | Some _ => []
  | None => [lit "No PDF library found. Install: pip install pypdf"]
  end.

Definition initial_state (env : Env) : State :=
  mkState [] [] (startup_log env) [] [].

(* ================================================================= *)
(** ** The text extraction adapter *)

(** The separator ["\n\n"]. *)
Definition double_newline : str := [0x0A; 0x0A].

(** The loop of lines 33-36 and 47-50: [text_parts] grows by the text
    of every page whose text is true. *)
Fixpoint collect_text (pages : list Page) (text_parts : list str)
  : M (list str) :=
  match pages with
  | [] => ret text_parts
  | page :: rest =>
      text <- lift (page_extract_text page) ;;
      collect_text rest
        match text with
        | Some t => if truthy t then text_parts ++ [t] else text_parts
        | None => text_parts
        end
  end.

(** Lines 28-37.  The name [pypdf] is bound only when the import of
    line 17 succeeded. *)
Definition extract_text_pypdf (env : Env) (pdf_bytes : bytes) : M (str * Z) :=
  match pypdf env with
  | None => raise (Exn "NameError" (lit "name 'pypdf' is not defined"))
  | Some lib =>
      note_library_call (lit "pypdf") pdf_bytes ;;
      reader_pages <- lift (open_document lib pdf_bytes) ;;
      let pages := Z.of_nat (List.length reader_pages) in
      text_parts <- collect_text reader_pages [] ;;
      ret (join double_newline text_parts, pages)
  end.

(** Lines 40-51.  The function imports the module again. *)
Definition extract_text_pdfplumber (env : Env) (pdf_bytes : bytes)
  : M (str * Z) :=
  match pdfplumber env with
  | None =>
      raise (Exn "ModuleNotFoundError" (lit "No module named 'pdfplumber'"))
  | Some lib =>
      note_library_call (lit "pdfplumber") pdf_bytes ;;
      pdf_pages <- lift (open_document lib pdf_bytes) ;;
      let pages := Z.of_nat (List.length pdf_pages) in
      text_parts <- collect_text pdf_pages [] ;;
      ret (join double_newline text_parts, pages)
  end.

Definition failure_result (message : str) : dict :=
  [(lit "error", VStr message); (lit "text", VStr []); (lit "pages", VInt 0)].

Definition success_result (text : str) (pages : Z) (library : str) : dict :=
  [(lit "text", VStr text); (lit "pages", VInt pages);
   (lit "library", VStr library)].

(** Lines 54-71. *)
Definition extract_text (env : Env) (pdf_bytes : bytes) : M dict :=
  note_adapter_call pdf_bytes ;;
  match PDF_LIBRARY env with
  | None => ret (failure_result (lit "No PDF library installed"))
  | Some library =>
      try_except
        (r <- (if eqb library (lit "pypdf")
               then extract_text_pypdf env pdf_bytes
               else extract_text_pdfplumber env pdf_bytes) ;;
         let '(text, pages) := r in
         ret (success_result (strip text) pages library))
        (fun e => ret (failure_result (exn_str e)))
  end.

(* ================================================================= *)
(** ** The request handler *)

(** The attributes of the handler that a request fixes: [self.path] and
    [self.headers], the header fields in the order received. *)
Record Request : Type := mkRequest {
  path : str;
  headers : list (str * str)
}.

(** [headers.get(name, failobj)]: the value of the first field whose
    name equals [name] without regard to case. *)
Fixpoint headers_get (hs : list (str * str)) (name : str) (failobj : value)
  : value :=
  match hs with
  | [] => failobj
  | (k, v) :: r =>
      if eqb (lower k) (lower name) then VStr v
      else headers_get r name failobj
  end.

(** Lines 107-111. *)
Definition _send_json (data : dict) (status : Z) : M unit :=
  send_response status ;;
  send_header (lit "Content-Type") (lit "application/json") ;;
  end_headers ;;
  body <- lift (encode (Json.dumps data)) ;;
  wfile_write body.

(** Lines 80-85. *)
Definition do_GET (env : Env) (self : Request) : M unit :=
  if eqb (path self) (lit "/health") then
    _send_json
      [(lit "status", VStr (lit "ok"));
       (lit "library",
         match PDF_LIBRARY env with Some l => VStr l | None => VNone end)]
      200
  else
    _send_json [(lit "error", VStr (lit "Use POST /parse with PDF data"))] 400.

(** Lines 87-105. *)
Definition do_POST (env : Env) (self : Request) : M unit :=
  if negb (eqb (path self) (lit "/parse")) then
    _send_json [(lit "error", VStr (lit "Unknown endpoint"))] 404
  else
    content_length <-
      lift (py_int (headers_get (headers self) (lit "Content-Length") (VInt 0))) ;;
    if Z.eqb content_length 0 then
      _send_json [(lit "error", VStr (lit "No PDF data"))] 400
    else
      pdf_bytes <- rfile_read content_length ;;
      result <- extract_text env pdf_bytes ;;
      has_error <-
        (if dict_contains (lit "error") result then
           e <- lift (dict_getitem (lit "error") result) ;;
           ret (value_truthy e)
         else ret false) ;;
      if has_error then _send_json result 500
      else
        pages <- lift (dict_getitem (lit "pages") result) ;;
        text <- lift (dict_getitem (lit "text") result) ;;
        chars <- lift (py_len text) ;;
        logger_info
          (lit "Parsed PDF: " ++ str_of_value pages ++ lit " pages, "
           ++ str_of_int chars ++ lit " chars") ;;
        _send_json result 200.

(* ================================================================= *)
(** ** Serving requests *)

Inductive Method : Type := GET | POST.

Record HttpRequest : Type := mkHttpRequest {
  method : Method;
  target : Request;
  body : bytes
}.

(** A new connection: the request body is what [rfile] will give and
    nothing has been sent. *)
Definition connect (payload : bytes) (st : State) : State :=
  mkState payload [] (log st) (adapter_calls st) (library_calls st).

(** One request on a connection of its own.  The result is what the
    handler method returned or raised, and what was sent. *)
Definition handle (env : Env) (r : HttpRequest) (st : State)
  : (outcome unit * list wire_event) * State :=
  let '(o, st') :=
    match method r with
    | GET => do_GET env (target r)
    | POST => do_POST env (target r)
    end (connect (body r) st) in
  ((o, wire st'), st').

(** Requests served one after the other by one process. *)
Fixpoint serve (env : Env) (rs : list HttpRequest) (st : State)
  : list (outcome unit * list wire_event) * State :=
  match rs with
  | [] => ([], st)
  | r :: rest =>
      let '(resp, st') := handle env r st in
      let '(resps, st'') := serve env rest st' in
      (resp :: resps, st'')
  end.

(* ================================================================= *)
(** ** What the libraries yield, and the shape of responses *)

(** The library object behind the selection. *)
Definition selected_library (env : Env) : option Library :=
  match pypdf env with
  | Some lib => Some lib
  | None => pdfplumber env
  end.

(** Extracting the pages of an opened document in page order: the
    texts of all pages, or the first error raised. *)
Fixpoint read_pages (pages : list Page) : outcome (list (option str)) :=
  match pages with
  | [] => Return []
  | page :: rest =>
      match page_extract_text page with
      | Raise e => Raise e
      | Return t =>
          match read_pages rest with
          | Return ts => Return (t :: ts)
          | Raise e => Raise e
          end
      end
  end.

(** Opening and reading a document with a library. *)
Definition run_library (lib : Library) (pdf_bytes : bytes)
  : outcome (list (option str)) :=
  match open_document lib pdf_bytes with
  | Raise e => Raise e
  | Return pages => read_pages pages
  end.

Module Spec.

(** The text of the result as the specification words it: the texts
    of the pages in page order, pages without text dropped. *)
Definition segments (texts : list (option str)) : list str :=
  flat_map
    (fun t => match t with
              | Some (c :: s) => [c :: s]
              | _ => []
              end)
    texts.

(** The remaining segments joined by a double line break and trimmed. *)
Definition text_of_pages (texts : list (option str)) : str :=
  strip (join double_newline (segments texts)).

End Spec.

(** The result of the adapter as a function of the environment and of
    the bytes. *)
Definition adapter_result (env : Env) (pdf_bytes : bytes) : dict :=
  match PDF_LIBRARY env, selected_library env with
  | Some library, Some lib =>
      match run_library lib pdf_bytes with
      | Return texts =>
          success_result (Spec.text_of_pages texts)
            (Z.of_nat (List.length texts)) library
      | Raise e => failure_result (exn_str e)
      end
  | _, _ => failure_result (lit "No PDF library installed")
  end.

(** The libraries the adapter opens a document with: the selected one,
    if any. *)
Definition adapter_opens (env : Env) (pdf_bytes : bytes)
  : list (str * bytes) :=
  match PDF_LIBRARY env with
  | Some library => [(library, pdf_bytes)]
  | None => []
  end.

(** The bytes of a string of ASCII characters. *)
Definition ascii_bytes (s : str) : bytes := map byte_of s.

Definition all_ascii (s : str) : bool := forallb (fun c => c <? 0x80) s.

(** What [_send_json(data, status)] sends. *)
Definition json_response (status : Z) (data : dict) : list wire_event :=
  [SendResponse status;
   SendHeader (lit "Content-Type") (lit "application/json");
   EndHeaders;
   WfileWrite (ascii_bytes (Json.dumps data))].

(** The test of line 101: an [error] item with a true value. *)
Definition has_error (d : dict) : bool :=
  match dict_lookup (lit "error") d with
  | Some v => value_truthy v
  | None => false
  end.

(** The record of line 104. *)
Definition parsed_record (pages chars : Z) : str :=
  lit "Parsed PDF: " ++ str_of_int pages ++ lit " pages, "
  ++ str_of_int chars ++ lit " chars".

(** What a request that reaches line 99 adds to the log. *)
Definition post_log (result : dict) : list str :=
  if has_error result then []
  else
    match dict_lookup (lit "pages") result, dict_lookup (lit "text") result with
    | Some (VInt pages), Some (VStr text) => [parsed_record pages (len text)]
    | _, _ => []
    end.


(** The two shapes of a result. *)
Definition success_shape (env : Env) (d : dict) : Prop :=
  exists text pages library,
    d = success_result text pages library
    /\ (0 <= pages)%Z
    /\ PDF_LIBRARY env = Some library.

Definition failure_shape (d : dict) : Prop :=
  exists message, d = failure_result message.

(* ================================================================= *)
(** ** Example environments and requests *)

Module Examples.


(** A library that rejects every input with a message. *)
Definition strict_library : Library :=
  mkLibrary (fun _ => Raise (Exn "PdfStreamError"
                               (lit "Stream has ended unexpectedly"))).

(** A library that finds four pages in every input: two with text,
    one with the empty text, one without text. *)
Definition hello_pages : list Page :=
  [mkPage (Return (Some (lit " Hello")));
   mkPage (Return (Some []));
   mkPage (Return None);
   mkPage (Return (Some (lit "World  ")))].

Definition hello_library : Library := mkLibrary (fun _ => Return hello_pages).

Definition hello_env : Env := mkEnv None (Some hello_library).
Definition bare_env : Env := mkEnv None None.

Definition one_byte : bytes := [x25].

(** [POST /parse] with the given [Content-Length]. *)
Definition parse_request (content_length : string) : Request :=
  mkRequest (lit "/parse") [(lit "content-length", lit content_length)].


End Examples.

(* ================================================================= *)
(** ** [log_message] *)

(** A format string by its parts: literal text without a percent sign,
    and the conversions [%s], [%d] and [%%]. *)
Inductive piece : Type :=
| Text (s : str)
| ConvS
| ConvD
| Percent.

(** The format string as written. *)
Definition piece_source (p : piece) : str :=
  match p with
  | Text s => s
  | ConvS => lit "%s"
  | ConvD => lit "%d"
  | Percent => lit "%%"
  end.

Definition format_source (fmt : list piece) : str := flat_map piece_source fmt.

(** The number of arguments a format takes. *)
Fixpoint conversions (fmt : list piece) : nat :=
  match fmt with
  | [] => 0
  | (ConvS | ConvD) :: rest => S (conversions rest)
  | (Text _ | Percent) :: rest => conversions rest
  end.

(** [fmt % args] for a tuple [args]: the conversions take the arguments
    from left to right; a missing argument, an argument left over and a
    [%d] given something else than a number raise [TypeError]. *)
Fixpoint percent_format (fmt : list piece) (args : list value) : outcome str :=
  let continue (head : str) (rest : list piece) (args' : list value) :=
    match percent_format rest args' with
    | Return tail => Return (head ++ tail)
    | Raise e => Raise e
    end in
  let missing :=
    Raise (Exn "TypeError" (lit "not enough arguments for format string")) in
  match fmt with
  | [] =>
      match args with
      | [] => Return []
      | _ :: _ =>
          Raise (Exn "TypeError"
                   (lit "not all arguments converted during string formatting"))
      end
  | Text s :: rest => continue s rest args
  | Percent :: rest => continue (lit "%") rest args
  | ConvS :: rest =>
      match args with
      | [] => missing
      | v :: args' => continue (str_of_value v) rest args'
      end
  | ConvD :: rest =>
      match args with
      | [] => missing
      | VInt z :: args' => continue (str_of_int z) rest args'
      | VStr _ :: _ =>
          Raise (Exn "TypeError"
                   (lit "%d format: a real number is required, not str"))
      | VNone :: _ =>
          Raise (Exn "TypeError"
                   (lit "%d format: a real number is required, not NoneType"))
      end
  end.

(** [logger.info(msg, *args)]: the record holds [msg % args], and [msg]
    as written when there is no argument; [logging] reports a record
    that cannot be formatted on its own and drops it. *)
Definition logger_info_args (msg : list piece) (args : list value) : M unit :=
  match args with
  | [] => logger_info (format_source msg)
  | _ :: _ =>
      match percent_format msg args with
      | Return message => logger_info message
      | Raise _ => ret tt
      end
  end.

(** Lines 77-78.  [address] is what [self.address_string()] returns. *)
Definition log_message (address : str) (format : list piece)
    (args : list value) : M unit :=
  message <- lift (percent_format format args) ;;
  logger_info_args [ConvS; Text (lit " - "); ConvS]
    [VStr address; VStr message].

(** The format that [log_request] of the base class passes to
    [log_message]: the request line in double quotes, the status code
    and the size. *)
Definition access_format : list piece :=
  [Text [0x22]; ConvS; Text [0x22; 0x20]; ConvS; Text (lit " "); ConvS].



(* ================================================================= *)
(** * Properties *)

(** ** Strings *)

Lemma eqb_refl (s : str) : eqb s s = true.
Proof.
  induction s as [|c s IH]; simpl; [reflexivity|].
  now rewrite N.eqb_refl, IH.
Qed.

Lemma eqb_eq (a b : str) : eqb a b = true <-> a = b.
Proof.
  split; [|intros ->; apply eqb_refl].
  revert b; induction a as [|x a IH]; intros [|y b]; simpl; try discriminate.
  - reflexivity.
  - intros H. apply andb_true_iff in H as [Hxy Hab].
    apply N.eqb_eq in Hxy. now rewrite Hxy, (IH b Hab).
Qed.

Lemma eqb_neq (a b : str) : eqb a b = false <-> a <> b.
Proof.
  destruct (eqb a b) eqn:E.
  - apply eqb_eq in E. split; [discriminate | congruence].
  - split; [|reflexivity]. intros _ H. apply eqb_eq in H. congruence.
Qed.

Lemma lstrip_decompose (s : str) :
  exists l, s = l ++ lstrip s /\ forallb isspace l = true.
Proof.
  induction s as [|c s [l [Hs Hl]]]; simpl.
  - now exists [].
  - destruct (isspace c) eqn:E.
    + exists (c :: l). simpl. now rewrite E, Hl, <- Hs.
    + now exists [].
Qed.

Lemma lstrip_head (s : str) (c : N) (r : str) :
  lstrip s = c :: r -> isspace c = false.
Proof.
  induction s as [|x s IH]; simpl; [discriminate|].
  destruct (isspace x) eqn:E; [exact IH|].
  now intros [= <- _].
Qed.

Lemma forallb_rev {A} (f : A -> bool) (l : list A) :
  forallb f (rev l) = forallb f l.
Proof.
  induction l as [|x l IH]; simpl; [reflexivity|].
  rewrite forallb_app, IH. simpl. rewrite andb_true_r. apply andb_comm.
Qed.

(** [strip] removes a run of whitespace at each end and nothing else,
    and what is left neither starts nor ends with whitespace. *)
Lemma strip_decompose (s : str) :
  exists l r,
    s = l ++ strip s ++ r
    /\ forallb isspace l = true
    /\ forallb isspace r = true
    /\ (forall c t, strip s = c :: t -> isspace c = false)
    /\ (forall c t, strip s = t ++ [c] -> isspace c = false).
Proof.
  unfold strip, rstrip.
  destruct (lstrip_decompose s) as [l [Hs Hl]].
  destruct (lstrip_decompose (rev (lstrip s))) as [r [Hr Hrs]].
  assert (Hmid : lstrip s = rev (lstrip (rev (lstrip s))) ++ rev r).
  { rewrite <- rev_app_distr, <- Hr. symmetry. apply rev_involutive. }
  assert (Hlast : forall c t,
             rev (lstrip (rev (lstrip s))) = t ++ [c] -> isspace c = false).
  { intros c t H. apply (f_equal (@rev N)) in H.
    rewrite rev_involutive, rev_app_distr in H. simpl in H.
    eapply lstrip_head; exact H. }
  exists l, (rev r). repeat split.
  - rewrite <- Hmid. exact Hs.
  - exact Hl.
  - now rewrite forallb_rev.
  - intros c t H.
    destruct (lstrip s) as [|x u] eqn:E.
    + simpl in H. discriminate.
    + rewrite H in Hmid. simpl in Hmid. injection Hmid as Hx _. subst x.
      eapply lstrip_head; exact E.
  - exact Hlast.
Qed.

(** ** The loop over the pages *)

Lemma collect_text_run (pages : list Page) (text_parts : list str) (st : State) :
  collect_text pages text_parts st =
    (match read_pages pages with
     | Return texts => Return (text_parts ++ Spec.segments texts)
     | Raise e => Raise e
     end, st).
Proof.
  revert text_parts; induction pages as [|page rest IH]; intros text_parts.
  - simpl. unfold ret. now rewrite app_nil_r.
  - simpl. unfold bind, lift.
    destruct (page_extract_text page) as [t|e]; [|reflexivity].
    rewrite IH.
    destruct (read_pages rest) as [texts|e]; [|reflexivity].
    f_equal. f_equal.
    destruct t as [[|c t]|]; simpl; try reflexivity.
    now rewrite <- app_assoc.
Qed.

Lemma read_pages_length (pages : list Page) (texts : list (option str)) :
  read_pages pages = Return texts -> List.length texts = List.length pages.
Proof.
  revert texts; induction pages as [|page rest IH]; intros texts; simpl.
  - now intros [= <-].
  - destruct (page_extract_text page) as [t|e]; [|discriminate].
    destruct (read_pages rest) as [ts|e]; [|discriminate].
    intros [= <-]. simpl. now rewrite (IH ts).
Qed.

(** ** The adapter *)

Lemma extract_text_run (env : Env) (pdf_bytes : bytes) (st : State) :
  extract_text env pdf_bytes st =
    (Return (adapter_result env pdf_bytes),
     mkState (rfile st) (wire st) (log st)
             (adapter_calls st ++ [pdf_bytes])
             (library_calls st ++ adapter_opens env pdf_bytes)).
Proof.
  unfold extract_text, adapter_result, adapter_opens, PDF_LIBRARY,
    selected_library, run_library.
  destruct (pypdf env) as [lib|] eqn:Epy.
  - change (eqb (lit "pypdf") (lit "pypdf")) with true.
    unfold extract_text_pypdf. rewrite Epy.
    unfold bind, try_except, note_adapter_call, note_library_call, lift, ret.
    simpl.
    destruct (open_document lib pdf_bytes) as [pages|e]; [|reflexivity].
    rewrite collect_text_run.
    destruct (read_pages pages) as [texts|e] eqn:Er; [|reflexivity].
    simpl. now rewrite (read_pages_length _ _ Er).
  - destruct (pdfplumber env) as [lib|] eqn:Epl.
    + change (eqb (lit "pdfplumber") (lit "pypdf")) with false.
      unfold extract_text_pdfplumber. rewrite Epl.
      unfold bind, try_except, note_adapter_call, note_library_call, lift, ret.
      simpl.
      destruct (open_document lib pdf_bytes) as [pages|e]; [|reflexivity].
      rewrite collect_text_run.
      destruct (read_pages pages) as [texts|e] eqn:Er; [|reflexivity].
      simpl. now rewrite (read_pages_length _ _ Er).
    + unfold bind, note_adapter_call, ret. simpl. now rewrite app_nil_r.
Qed.

(** The result is a success or a failure, told apart by [has_error]
    unless the message of the failure is empty. *)
Lemma adapter_result_cases (env : Env) (pdf_bytes : bytes) :
  success_shape env (adapter_result env pdf_bytes)
  \/ failure_shape (adapter_result env pdf_bytes).
Proof.
  unfold adapter_result, PDF_LIBRARY, selected_library.
  destruct (pypdf env) as [lib|] eqn:Epy.
  - destruct (run_library lib pdf_bytes) as [texts|e].
    + left. exists (Spec.text_of_pages texts), (Z.of_nat (List.length texts)),
        (lit "pypdf").
      unfold PDF_LIBRARY. rewrite Epy. repeat split. lia.
    + right. now exists (exn_str e).
  - destruct (pdfplumber env) as [lib|] eqn:Epl.
    + destruct (run_library lib pdf_bytes) as [texts|e].
      * left. exists (Spec.text_of_pages texts), (Z.of_nat (List.length texts)),
          (lit "pdfplumber").
        unfold PDF_LIBRARY. rewrite Epy, Epl. repeat split. lia.
      * right. now exists (exn_str e).
    + right. now exists (lit "No PDF library installed").
Qed.

Lemma has_error_success (text : str) (pages : Z) (library : str) :
  has_error (success_result text pages library) = false.
Proof. reflexivity. Qed.

Lemma has_error_failure (message : str) :
  has_error (failure_result message) = truthy message.
Proof. reflexivity. Qed.

(** ** JSON text is ASCII, so encoding it cannot fail *)

Lemma all_ascii_app (a b : str) :
  all_ascii (a ++ b) = all_ascii a && all_ascii b.
Proof. apply forallb_app. Qed.

Lemma encode_ascii (s : str) :
  all_ascii s = true -> encode s = Return (ascii_bytes s).
Proof.
  induction s as [|c s IH]; simpl; [reflexivity|].
  intros H. apply andb_true_iff in H as [Hc Hs].
  unfold encode_char. rewrite Hc, (IH Hs). reflexivity.
Qed.

Lemma all_ascii_uint (d : Decimal.uint) :
  all_ascii (lit (NilEmpty.string_of_uint d)) = true.
Proof. induction d; simpl; auto. Qed.

Lemma all_ascii_uint0 (d : Decimal.uint) :
  all_ascii (lit (NilZero.string_of_uint d)) = true.
Proof.
  unfold NilZero.string_of_uint.
  destruct d; try reflexivity; apply (all_ascii_uint (_ d)).
Qed.

Lemma all_ascii_str_of_int (z : Z) : all_ascii (str_of_int z) = true.
Proof.
  unfold str_of_int, NilZero.string_of_int.
  destruct (Z.to_int z) as [d|d].
  - apply all_ascii_uint0.
  - change (lit (String "-" (NilZero.string_of_uint d)))
      with (0x2D :: lit (NilZero.string_of_uint d)).
    simpl. apply all_ascii_uint0.
Qed.

Lemma hex_digit_ascii (n : N) : n < 16 -> (Json.hex_digit n <? 0x80) = true.
Proof.
  intros H. unfold Json.hex_digit.
  destruct (n <? 10); apply N.ltb_lt; lia.
Qed.

Lemma all_ascii_u_escape (n : N) : all_ascii (Json.u_escape n) = true.
Proof.
  unfold Json.u_escape, all_ascii. simpl.
  rewrite !hex_digit_ascii; [reflexivity| | | |];
    apply N.mod_lt; discriminate.
Qed.

Lemma all_ascii_escape_char (c : N) : all_ascii (Json.escape_char c) = true.
Proof.
  unfold Json.escape_char.
  repeat match goal with
         | |- context [if ?b then _ else _] => destruct b eqn:?
         end; try reflexivity.
  - simpl. rewrite andb_true_r.
    apply andb_true_iff in Heqb6 as [_ H]. apply N.leb_le in H.
    apply N.ltb_lt. lia.
  - apply all_ascii_u_escape.
  - rewrite all_ascii_app, !all_ascii_u_escape. reflexivity.
Qed.

Lemma all_ascii_dumps_str (s : str) : all_ascii (Json.dumps_str s) = true.
Proof.
  unfold Json.dumps_str. rewrite !all_ascii_app. simpl.
  rewrite andb_true_r.
  induction s as [|c s IH]; simpl; [reflexivity|].
  now rewrite all_ascii_app, all_ascii_escape_char, IH.
Qed.

Lemma all_ascii_dumps_item (kv : str * value) :
  all_ascii (Json.dumps_item kv) = true.
Proof.
  unfold Json.dumps_item. rewrite !all_ascii_app, all_ascii_dumps_str.
  destruct (snd kv); simpl;
    [reflexivity | apply all_ascii_str_of_int | apply all_ascii_dumps_str].
Qed.

Lemma all_ascii_join (sep : str) (parts : list str) :
  all_ascii sep = true ->
  forallb all_ascii parts = true ->
  all_ascii (join sep parts) = true.
Proof.
  intros Hsep. induction parts as [|p rest IH]; [reflexivity|].
  intros H. simpl in H. apply andb_true_iff in H as [Hp Hrest].
  destruct rest as [|q rest']; [exact Hp|].
  change (join sep (p :: q :: rest')) with (p ++ sep ++ join sep (q :: rest')).
  now rewrite !all_ascii_app, Hp, Hsep, (IH Hrest).
Qed.

Lemma all_ascii_dumps (d : dict) : all_ascii (Json.dumps d) = true.
Proof.
  unfold Json.dumps. rewrite !all_ascii_app. simpl. rewrite andb_true_r.
  apply all_ascii_join; [reflexivity|].
  induction d as [|kv d IH]; [reflexivity|].
  change (forallb all_ascii (map Json.dumps_item (kv :: d)))
    with (all_ascii (Json.dumps_item kv)
          && forallb all_ascii (map Json.dumps_item d)).
  now rewrite all_ascii_dumps_item, IH.
Qed.

Lemma send_json_run (data : dict) (status : Z) (st : State) :
  _send_json data status st =
    (Return tt,
     mkState (rfile st) (wire st ++ json_response status data) (log st)
             (adapter_calls st) (library_calls st)).
Proof.
  unfold _send_json, send_response, send_header, end_headers, wfile_write,
    emit, bind, lift.
  rewrite (encode_ascii _ (all_ascii_dumps data)).
  cbn [rfile wire log adapter_calls library_calls].
  unfold json_response. now rewrite <- !app_assoc.
Qed.

(** ** The handler *)

Lemma do_GET_health_run (env : Env) (self : Request) (st : State) :
  path self = lit "/health" ->
  do_GET env self st =
    (Return tt,
     mkState (rfile st)
       (wire st ++
        json_response 200
          [(lit "status", VStr (lit "ok"));
           (lit "library",
             match PDF_LIBRARY env with Some l => VStr l | None => VNone end)])
       (log st) (adapter_calls st) (library_calls st)).
Proof.
  intros Hpath. unfold do_GET. rewrite Hpath, eqb_refl. apply send_json_run.
Qed.

Lemma do_GET_other_run (env : Env) (self : Request) (st : State) :
  path self <> lit "/health" ->
  do_GET env self st =
    (Return tt,
     mkState (rfile st)
       (wire st ++
        json_response 400
          [(lit "error", VStr (lit "Use POST /parse with PDF data"))])
       (log st) (adapter_calls st) (library_calls st)).
Proof.
  intros Hpath. unfold do_GET.
  apply eqb_neq in Hpath. rewrite Hpath. apply send_json_run.
Qed.

Lemma do_POST_other_run (env : Env) (self : Request) (st : State) :
  path self <> lit "/parse" ->
  do_POST env self st =
    (Return tt,
     mkState (rfile st)
       (wire st ++ json_response 404 [(lit "error", VStr (lit "Unknown endpoint"))])
       (log st) (adapter_calls st) (library_calls st)).
Proof.
  intros Hpath. unfold do_POST.
  apply eqb_neq in Hpath. rewrite Hpath. apply send_json_run.
Qed.

Lemma do_POST_invalid_length_run (env : Env) (self : Request) (st : State)
    (e : exn) :
  path self = lit "/parse" ->
  py_int (headers_get (headers self) (lit "Content-Length") (VInt 0)) = Raise e ->
  do_POST env self st = (Raise e, st).
Proof.
  intros Hpath Hlen. unfold do_POST.
  rewrite Hpath, eqb_refl. cbn [negb].
  unfold bind, lift. now rewrite Hlen.
Qed.

Lemma do_POST_empty_run (env : Env) (self : Request) (st : State) :
  path self = lit "/parse" ->
  py_int (headers_get (headers self) (lit "Content-Length") (VInt 0)) = Return 0%Z ->
  do_POST env self st =
    (Return tt,
     mkState (rfile st)
       (wire st ++ json_response 400 [(lit "error", VStr (lit "No PDF data"))])
       (log st) (adapter_calls st) (library_calls st)).
Proof.
  intros Hpath Hlen. unfold do_POST.
  rewrite Hpath, eqb_refl. cbn [negb].
  unfold bind at 1. unfold lift. rewrite Hlen.
  change (Z.eqb 0 0) with true. cbv iota. apply send_json_run.
Qed.

Lemma do_POST_negative_length_run (env : Env) (self : Request) (st : State)
    (n : Z) :
  path self = lit "/parse" ->
  py_int (headers_get (headers self) (lit "Content-Length") (VInt 0)) = Return n ->
  (n < -1)%Z ->
  do_POST env self st =
    (Raise (Exn "ValueError" (lit "read length must be non-negative or -1")),
     st).
Proof.
  intros Hpath Hlen Hn. unfold do_POST.
  rewrite Hpath, eqb_refl. cbn [negb].
  unfold bind at 1. unfold lift at 1. rewrite Hlen.
  replace (Z.eqb n 0) with false by (symmetry; apply Z.eqb_neq; lia).
  unfold bind at 1. unfold rfile_read at 1.
  now replace (Z.ltb n (-1)) with true by (symmetry; apply Z.ltb_lt; lia).
Qed.

Lemma do_POST_parse_run (env : Env) (self : Request) (st : State) (n : Z) :
  path self = lit "/parse" ->
  py_int (headers_get (headers self) (lit "Content-Length") (VInt 0)) = Return n ->
  n <> 0%Z ->
  (-1 <= n)%Z ->
  let pdf_bytes := read_prefix n (rfile st) in
  let result := adapter_result env pdf_bytes in
  do_POST env self st =
    (Return tt,
     mkState (read_rest n (rfile st))
       (wire st ++ json_response (if has_error result then 500 else 200) result)
       (log st ++ post_log result)
       (adapter_calls st ++ [pdf_bytes])
       (library_calls st ++ adapter_opens env pdf_bytes)).
Proof.
  intros Hpath Hlen Hn Hlow pdf_bytes result. unfold do_POST.
  rewrite Hpath, eqb_refl. cbn [negb].
  unfold bind at 1. unfold lift at 1. rewrite Hlen.
  apply Z.eqb_neq in Hn. rewrite Hn.
  unfold bind at 1. unfold rfile_read at 1.
  replace (Z.ltb n (-1)) with false by (symmetry; apply Z.ltb_ge; lia).
  unfold bind at 1. rewrite extract_text_run.
  cbn [rfile wire log adapter_calls library_calls].
  fold pdf_bytes. subst result.
  destruct (adapter_result_cases env pdf_bytes) as [Hs | Hf].
  - destruct Hs as (text & pages & library & Hr & _ & _). rewrite Hr.
    change (dict_contains (lit "error") (success_result text pages library))
      with false.
    rewrite has_error_success.
    unfold bind at 1. unfold ret at 1.
    unfold bind at 1. unfold lift at 1.
    change (dict_getitem (lit "pages") (success_result text pages library))
      with (Return (VInt pages)).
    unfold bind at 1. unfold lift at 1.
    change (dict_getitem (lit "text") (success_result text pages library))
      with (Return (VStr text)).
    unfold bind at 1. unfold lift at 1. unfold py_len.
    unfold bind at 1. unfold logger_info at 1.
    rewrite send_json_run. reflexivity.
  - destruct Hf as (message & Hr). rewrite Hr.
    change (dict_contains (lit "error") (failure_result message)) with true.
    rewrite has_error_failure.
    unfold bind at 1. unfold bind at 1. unfold lift at 1.
    change (dict_getitem (lit "error") (failure_result message))
      with (Return (VStr message)).
    unfold ret at 1. unfold value_truthy.
    destruct message as [|c message]; unfold truthy.
    + unfold bind at 1. unfold lift at 1.
      change (dict_getitem (lit "pages") (failure_result []))
        with (Return (VInt 0)).
      unfold bind at 1. unfold lift at 1.
      change (dict_getitem (lit "text") (failure_result []))
        with (Return (VStr [])).
      unfold bind at 1. unfold lift at 1. unfold py_len.
      unfold bind at 1. unfold logger_info at 1.
      rewrite send_json_run. reflexivity.
    + rewrite send_json_run.
      cbn [rfile wire log adapter_calls library_calls].
      unfold post_log. rewrite has_error_failure. unfold truthy.
      now rewrite app_nil_r.
Qed.


(** What a request gets for an answer does not depend on the state of
    the process that serves it. *)
Lemma handle_state_independent (env : Env) (r : HttpRequest) (st1 st2 : State) :
  fst (handle env r st1) = fst (handle env r st2).
Proof.
  unfold handle. destruct (method r).
  - destruct (eqb (path (target r)) (lit "/health")) eqn:E.
    + apply eqb_eq in E. now rewrite !(do_GET_health_run _ _ _ E).
    + apply eqb_neq in E. now rewrite !(do_GET_other_run _ _ _ E).
  - destruct (eqb (path (target r)) (lit "/parse")) eqn:E.
    + apply eqb_eq in E.
      destruct (py_int (headers_get (headers (target r))
                          (lit "Content-Length") (VInt 0))) as [n|e] eqn:L.
      * destruct (Z.eq_dec n 0) as [->|Hn].
        -- now rewrite !(do_POST_empty_run _ _ _ E L).
        -- destruct (Z_lt_le_dec n (-1)) as [Hlow|Hlow].
           ++ now rewrite !(do_POST_negative_length_run _ _ _ _ E L Hlow).
           ++ now rewrite !(do_POST_parse_run _ _ _ _ E L Hn Hlow).
      * now rewrite !(do_POST_invalid_length_run _ _ _ _ E L).
    + apply eqb_neq in E. now rewrite !(do_POST_other_run _ _ _ E).
Qed.

(* ================================================================= *)
(** * The claims *)











(** C5.  When no library was selected, [extract_text] returns the
    result with [error = "No PDF library installed"], [text = ""] and
    [pages = 0], and no library is given the bytes. *)
Theorem C5_no_library_selected (env : Env) (pdf_bytes : bytes) (st : State) :
  PDF_LIBRARY env = None ->
  extract_text env pdf_bytes st =
    (Return (failure_result (lit "No PDF library installed")),
     mkState (rfile st) (wire st) (log st)
       (adapter_calls st ++ [pdf_bytes]) (library_calls st)).
Proof.
  intros Hnone. rewrite extract_text_run.
  unfold adapter_result, adapter_opens. rewrite Hnone.
  now rewrite app_nil_r.
Qed.

Lemma C5_no_library_selected_witness :
  extract_text Examples.bare_env Examples.one_byte
    (initial_state Examples.bare_env) =
    (Return (failure_result (lit "No PDF library installed")),
     mkState [] [] (startup_log Examples.bare_env) [Examples.one_byte] []).
Proof.
  exact (C5_no_library_selected Examples.bare_env Examples.one_byte
           (initial_state Examples.bare_env) eq_refl).
Defined.

(** C6.  [GET /health] is answered with status 200 and the body
    [{"status": "ok", "library": L}], where [L] is the selected library
    or [null]; [extract_text] is not called, whatever the selection. *)
Theorem C6_health (env : Env) (self : Request) (st : State) :
  path self = lit "/health" ->
  exists st',
    do_GET env self st = (Return tt, st')
    /\ wire st' =
         wire st ++
         json_response 200
           [(lit "status", VStr (lit "ok"));
            (lit "library",
              match PDF_LIBRARY env with
              | Some library => VStr library
              | None => VNone
              end)]
    /\ adapter_calls st' = adapter_calls st
    /\ library_calls st' = library_calls st.
Proof.
  intros Hpath. eexists. split.
  - apply (do_GET_health_run env self st Hpath).
  - repeat split.
Qed.

Lemma C6_health_witness :
  exists st',
    do_GET Examples.bare_env (mkRequest (lit "/health") [])
      (initial_state Examples.bare_env) = (Return tt, st')
    /\ wire st' =
         json_response 200
           [(lit "status", VStr (lit "ok")); (lit "library", VNone)]
    /\ adapter_calls st' = []
    /\ library_calls st' = [].
Proof.
  exact (C6_health Examples.bare_env (mkRequest (lit "/health") [])
           (initial_state Examples.bare_env) eq_refl).
Defined.

(** C7.  A [GET] of a path other than [/health] is answered with status
    400 and [{"error": "Use POST /parse with PDF data"}]; a [POST] to a
    path other than [/parse] is answered with status 404 and
    [{"error": "Unknown endpoint"}].  Neither calls [extract_text]. *)
Theorem C7_unknown_routes (env : Env) (self : Request) (st : State) :
  (path self <> lit "/health" ->
   exists st',
     do_GET env self st = (Return tt, st')
     /\ wire st' =
          wire st ++
          json_response 400
            [(lit "error", VStr (lit "Use POST /parse with PDF data"))]
     /\ adapter_calls st' = adapter_calls st
     /\ library_calls st' = library_calls st)
  /\ (path self <> lit "/parse" ->
      exists st',
        do_POST env self st = (Return tt, st')
        /\ wire st' =
             wire st ++
             json_response 404 [(lit "error", VStr (lit "Unknown endpoint"))]
        /\ adapter_calls st' = adapter_calls st
        /\ library_calls st' = library_calls st).
Proof.
  split; intros Hpath; eexists; split.
  - apply (do_GET_other_run env self st Hpath).
  - repeat split.
  - apply (do_POST_other_run env self st Hpath).
  - repeat split.
Qed.

Lemma C7_unknown_routes_witness :
  (exists st',
      do_GET Examples.hello_env (mkRequest (lit "/upload") [])
        (initial_state Examples.hello_env) = (Return tt, st')
      /\ wire st' =
           json_response 400
             [(lit "error", VStr (lit "Use POST /parse with PDF data"))]
      /\ adapter_calls st' = []
      /\ library_calls st' = [])
  /\ (exists st',
         do_POST Examples.hello_env (mkRequest (lit "/upload") [])
           (initial_state Examples.hello_env) = (Return tt, st')
         /\ wire st' =
              json_response 404 [(lit "error", VStr (lit "Unknown endpoint"))]
         /\ adapter_calls st' = []
         /\ library_calls st' = []).
Proof.
  destruct (C7_unknown_routes Examples.hello_env (mkRequest (lit "/upload") [])
              (initial_state Examples.hello_env)) as [Hget Hpost].
  split.
  - apply Hget. discriminate.
  - apply Hpost. discriminate.
Defined.

Lemma serve_responses (env : Env) (rs : list HttpRequest) (st : State) :
  fst (serve env rs st) = map (fun r => fst (handle env r st)) rs.
Proof.
  revert st; induction rs as [|r rest IH]; intros st; [reflexivity|].
  simpl. destruct (handle env r st) as [resp st'] eqn:Eh.
  specialize (IH st'). destruct (serve env rest st') as [resps st''].
  simpl in *. rewrite IH. f_equal.
  apply map_ext. intros r'. apply handle_state_independent.
Qed.

(** C8.  With the selection and the libraries fixed, the answer to a
    request is the same in every state of the process: the same request
    sent twice gets the same status, headers and body bytes, every
    request of a sequence gets the answer it would get alone, and
    the result of [extract_text] is a function of the bytes. *)
Theorem C8_same_request_same_response (env : Env) :
  (forall r st1 st2, fst (handle env r st1) = fst (handle env r st2))
  /\ (forall r st, fst (serve env [r; r] st)
                   = [fst (handle env r st); fst (handle env r st)])
  /\ (forall rs st, fst (serve env rs st)
                    = map (fun r => fst (handle env r st)) rs)
  /\ (forall pdf_bytes st1 st2,
         fst (extract_text env pdf_bytes st1)
         = fst (extract_text env pdf_bytes st2)).
Proof.
  repeat split.
  - apply handle_state_independent.
  - intros r st. apply (serve_responses env [r; r] st).
  - apply serve_responses.
  - intros pdf_bytes st1 st2. now rewrite !extract_text_run.
Qed.

(** C9 fails on the code.  A [POST /parse] whose [Content-Length] is
    [abc] makes [int] raise [ValueError] at line 93; [do_POST] raises
    it to its caller and has sent nothing: no status, no JSON body. *)
Theorem C9_malformed_content_length_raises
    (env : Env) (payload : bytes) (st : State) :
  handle env (mkHttpRequest POST (Examples.parse_request "abc") payload) st =
    ((Raise (Exn "ValueError"
               (lit "invalid literal for int() with base 10: 'abc'")),
      []),
     connect payload st).
Proof.
  unfold handle. cbn [method target body].
  now rewrite (do_POST_invalid_length_run env (Examples.parse_request "abc")
                 (connect payload st) _ eq_refl eq_refl).
Qed.

Lemma success_not_failure (text : str) (pages : Z) (library message : str) :
  success_result text pages library <> failure_result message.
Proof. intros H. apply (f_equal dict_keys) in H. discriminate H. Qed.

(** C10.  [extract_text] always returns a dictionary, of exactly one of
    two shapes: [text] (a string), [pages] (an integer that is not
    negative) and [library] (the selection), without [error]; or
    [error] (a string), [text = ""] and [pages = 0], without [library].
    No result has both [library] and [error]. *)
Theorem C10_result_shapes (env : Env) (pdf_bytes : bytes) (st : State) :
  exists d st',
    extract_text env pdf_bytes st = (Return d, st')
    /\ ((success_shape env d
         /\ dict_keys d = [lit "text"; lit "pages"; lit "library"]
         /\ dict_contains (lit "error") d = false
         /\ ~ failure_shape d)
        \/ (failure_shape d
            /\ dict_keys d = [lit "error"; lit "text"; lit "pages"]
            /\ dict_contains (lit "library") d = false
            /\ ~ success_shape env d))
    /\ ~ (dict_contains (lit "library") d = true
          /\ dict_contains (lit "error") d = true).
Proof.
  exists (adapter_result env pdf_bytes). eexists.
  split; [apply extract_text_run|].
  destruct (adapter_result_cases env pdf_bytes) as [Hs | Hf].
  - pose proof Hs as (text & pages & library & Hr & Hp & Hl).
    rewrite Hr in *. split.
    + left. repeat split; [exact Hs|].
      intros (message & Hm). exact (success_not_failure _ _ _ _ Hm).
    + intros [_ H]. discriminate H.
  - pose proof Hf as (message & Hr).
    rewrite Hr in *. split.
    + right. repeat split; [exact Hf|].
      intros (text & pages & library & Hm & _).
      exact (success_not_failure _ _ _ _ (eq_sym Hm)).
    + intros [H _]. discriminate H.
Qed.

(* ================================================================= *)
(** * Further properties of the adapter *)

(** X1.  [extract_text] gives the bytes to exactly one library, the one
    selected when the module was loaded: pypdf whenever it could be
    imported, whether or not pdfplumber could be and whether or not
    pypdf fails on the document; pdfplumber only when pypdf could not
    be imported.  It returns normally and leaves the connection and
    the log alone. *)
Theorem X1_one_library_no_fallback
    (env : Env) (lib : Library) (pdf_bytes : bytes) (st : State) :
  selected_library env = Some lib ->
  exists d st',
    extract_text env pdf_bytes st = (Return d, st')
    /\ library_calls st' =
         library_calls st ++
         [(match pypdf env with
           | Some _ => lit "pypdf"
           | None => lit "pdfplumber"
           end, pdf_bytes)]
    /\ rfile st' = rfile st /\ wire st' = wire st /\ log st' = log st.
Proof.
  intros Hsel. eexists _, _. split; [apply extract_text_run|].
  cbn [library_calls rfile wire log]. repeat split.
  unfold adapter_opens, PDF_LIBRARY. unfold selected_library in Hsel.
  destruct (pypdf env); [reflexivity|].
  destruct (pdfplumber env); [reflexivity | discriminate].
Qed.

Lemma X1_one_library_no_fallback_witness :
  exists d st',
    extract_text (mkEnv (Some Examples.strict_library)
                    (Some Examples.hello_library))
      Examples.one_byte (mkState [] [] [] [] []) = (Return d, st')
    /\ library_calls st' = [(lit "pypdf", Examples.one_byte)]
    /\ rfile st' = [] /\ wire st' = [] /\ log st' = [].
Proof.
  exact (X1_one_library_no_fallback
           (mkEnv (Some Examples.strict_library) (Some Examples.hello_library))
           Examples.strict_library Examples.one_byte
           (mkState [] [] [] [] []) eq_refl).
Defined.

Lemma adapter_result_text (env : Env) (pdf_bytes : bytes) (t : str) :
  dict_lookup (lit "text") (adapter_result env pdf_bytes) = Some (VStr t) ->
  t = [] \/ exists texts, t = Spec.text_of_pages texts.
Proof.
  unfold adapter_result.
  destruct (PDF_LIBRARY env) as [library|];
    [destruct (selected_library env) as [lib|];
     [destruct (run_library lib pdf_bytes) as [texts|e]|]|].
  - intros [= <-]. right. now exists texts.
  - intros [= <-]. now left.
  - intros [= <-]. now left.
  - intros [= <-]. now left.
Qed.

(** X2.  The [text] of every result of [extract_text] is trimmed: its
    first character is not whitespace and neither is its last. *)
Theorem X2_result_text_is_trimmed
    (env : Env) (pdf_bytes : bytes) (st : State) (d : dict) (t : str) :
  fst (extract_text env pdf_bytes st) = Return d ->
  dict_lookup (lit "text") d = Some (VStr t) ->
  (forall c r, t = c :: r -> isspace c = false)
  /\ (forall c r, t = r ++ [c] -> isspace c = false).
Proof.
  rewrite extract_text_run. cbn [fst]. intros [= <-] Ht.
  destruct (adapter_result_text _ _ _ Ht) as [-> | [texts ->]].
  - split; intros c r H; [discriminate|].
    destruct r; discriminate.
  - unfold Spec.text_of_pages.
    destruct (strip_decompose (join double_newline (Spec.segments texts)))
      as (l & r & _ & _ & _ & Hfirst & Hlast).
    split; intros c u H; [exact (Hfirst c u H) | exact (Hlast c u H)].
Qed.

Lemma X2_result_text_is_trimmed_witness :
  (forall c r, lit "Hello" ++ double_newline ++ lit "World" = c :: r ->
               isspace c = false)
  /\ (forall c r, lit "Hello" ++ double_newline ++ lit "World" = r ++ [c] ->
                  isspace c = false).
Proof.
  exact (X2_result_text_is_trimmed Examples.hello_env Examples.one_byte
           (initial_state Examples.hello_env)
           (success_result (lit "Hello" ++ double_newline ++ lit "World") 4
              (lit "pdfplumber"))
           (lit "Hello" ++ double_newline ++ lit "World")
           eq_refl eq_refl).
Defined.

Lemma segments_invariant (texts : list (option str)) :
  (List.length (Spec.segments texts) <= List.length texts)%nat
  /\ Forall (fun part => part <> []) (Spec.segments texts).
Proof.
  induction texts as [|t texts [IHlen IHall]]; simpl.
  - split; [lia | constructor].
  - destruct t as [[|c s]|]; simpl.
    + split; [lia | exact IHall].
    + split; [lia | constructor; [discriminate | exact IHall]].
    + split; [lia | exact IHall].
Qed.

(** X3.  The loop over the pages, started with an empty [text_parts],
    ends with at most one part for each page and without an empty
    part, and it changes nothing in the state. *)
Theorem X3_text_parts_invariant
    (pages : list Page) (st st' : State) (text_parts : list str) :
  collect_text pages [] st = (Return text_parts, st') ->
  st' = st
  /\ (List.length text_parts <= List.length pages)%nat
  /\ Forall (fun part => part <> []) text_parts.
Proof.
  rewrite collect_text_run.
  destruct (read_pages pages) as [texts|e] eqn:Er; [|discriminate].
  intros [= <- <-]. cbn [app].
  destruct (segments_invariant texts) as [Hlen Hall].
  rewrite <- (read_pages_length _ _ Er). auto.
Qed.

Lemma X3_text_parts_invariant_witness :
  initial_state Examples.hello_env = initial_state Examples.hello_env
  /\ (List.length [lit " Hello"; lit "World  "]
      <= List.length Examples.hello_pages)%nat
  /\ Forall (fun part => part <> []) [lit " Hello"; lit "World  "].
Proof.
  exact (X3_text_parts_invariant Examples.hello_pages
           (initial_state Examples.hello_env)
           (initial_state Examples.hello_env)
           [lit " Hello"; lit "World  "] eq_refl).
Defined.

(* ================================================================= *)
(** * Further properties of the handler *)














(** The cases of a request, by method, path and content length. *)
Ltac request_cases env r st :=
  unfold handle;
  destruct (method r);
  [ destruct (eqb (path (target r)) (lit "/health")) eqn:Epath;
    [ apply eqb_eq in Epath;
      rewrite (do_GET_health_run env _ (connect (body r) st) Epath)
    | apply eqb_neq in Epath;
      rewrite (do_GET_other_run env _ (connect (body r) st) Epath) ]
  | destruct (eqb (path (target r)) (lit "/parse")) eqn:Epath;
    [ apply eqb_eq in Epath;
      destruct (py_int (headers_get (headers (target r))
                          (lit "Content-Length") (VInt 0)))
        as [n|e] eqn:Elen;
      [ destruct (Z.eq_dec n 0) as [Hzero|Hzero];
        [ subst n;
          rewrite (do_POST_empty_run env _ (connect (body r) st) Epath Elen)
        | destruct (Z_lt_le_dec n (-1)) as [Hlow|Hlow];
          [ rewrite (do_POST_negative_length_run env _ (connect (body r) st)
                       n Epath Elen Hlow)
          | rewrite (do_POST_parse_run env _ (connect (body r) st)
                       n Epath Elen Hzero Hlow) ] ]
      | rewrite (do_POST_invalid_length_run env _ (connect (body r) st)
                   e Epath Elen) ]
    | apply eqb_neq in Epath;
      rewrite (do_POST_other_run env _ (connect (body r) st) Epath) ] ].

(** X5.  Whatever the request, a handler method either raises having
    sent nothing, or returns having sent exactly one complete JSON
    response whose status is 200, 400, 404 or 500.  A response is never
    left half sent, and a request whose handler raises leaves the log
    and the records of calls as they were. *)
Theorem X5_one_complete_response_or_none
    (env : Env) (r : HttpRequest) (st : State) :
  (exists e, handle env r st = ((Raise e, []), connect (body r) st))
  \/ (exists status data st',
         handle env r st = ((Return tt, json_response status data), st')
         /\ In status [200; 400; 404; 500]%Z).
Proof.
  request_cases env r st.
  - right. eexists _, _, _. split; [reflexivity | simpl; tauto].
  - right. eexists _, _, _. split; [reflexivity | simpl; tauto].
  - right. eexists _, _, _. split; [reflexivity | simpl; tauto].
  - left. eexists. reflexivity.
  - right. eexists _, _, _. split; [reflexivity|].
    destruct (has_error _); simpl; tauto.
  - left. eexists. reflexivity.
  - right. eexists _, _, _. split; [reflexivity | simpl; tauto].
Qed.

Lemma read_prefix_is_prefix (n : Z) (stream : bytes) :
  read_prefix n stream ++ read_rest n stream = stream.
Proof. unfold read_prefix, read_rest. apply firstn_skipn. Qed.

(** X6.  A request reaches [extract_text] at most once, and only a
    [POST] to [/parse]: a [GET] never does.  What [extract_text]
    receives is then a prefix of the request body, and at most one
    library is given these bytes. *)
Theorem X6_adapter_called_at_most_once
    (env : Env) (r : HttpRequest) (st : State) :
  let st' := snd (handle env r st) in
  (adapter_calls st' = adapter_calls st
   /\ library_calls st' = library_calls st)
  \/ (method r = POST
      /\ path (target r) = lit "/parse"
      /\ exists pdf_bytes unread,
           body r = pdf_bytes ++ unread
           /\ adapter_calls st' = adapter_calls st ++ [pdf_bytes]
           /\ (library_calls st' = library_calls st
               \/ exists library,
                    PDF_LIBRARY env = Some library
                    /\ library_calls st' =
                         library_calls st ++ [(library, pdf_bytes)])).
Proof.
  cbv zeta.
  request_cases env r st; try (left; split; reflexivity).
  right. split; [reflexivity|]. split; [exact Epath|].
  exists (read_prefix n (body r)), (read_rest n (body r)).
  cbn [snd adapter_calls library_calls connect rfile].
  split; [symmetry; apply read_prefix_is_prefix|].
  split; [reflexivity|].
  unfold adapter_opens. destruct (PDF_LIBRARY env) as [library|].
  - right. now exists library.
  - left. apply app_nil_r.
Qed.








(* ================================================================= *)
(** * Properties of [log_message] *)

Lemma percent_format_arity (fmt : list piece) (args : list value) (m : str) :
  percent_format fmt args = Return m -> conversions fmt = List.length args.
Proof.
  revert args m; induction fmt as [|p rest IH]; intros args m.
  - destruct args; [reflexivity | discriminate].
  - destruct p; cbn [percent_format conversions].
    + destruct (percent_format rest args) eqn:E; [|discriminate].
      intros _. exact (IH _ _ E).
    + destruct args as [|v args']; [discriminate|].
      destruct (percent_format rest args') eqn:E; [|discriminate].
      intros _. cbn [List.length]. f_equal. exact (IH _ _ E).
    + destruct args as [|[|z|s] args']; try discriminate.
      destruct (percent_format rest args') eqn:E; [|discriminate].
      intros _. cbn [List.length]. f_equal. exact (IH _ _ E).
    + destruct (percent_format rest args) eqn:E; [|discriminate].
      intros _. exact (IH _ _ E).
Qed.

Lemma percent_format_type_error (fmt : list piece) (args : list value) (e : exn) :
  percent_format fmt args = Raise e -> exn_class e = "TypeError"%string.
Proof.
  revert args; induction fmt as [|p rest IH]; intros args.
  - destruct args; [discriminate|]. now intros [= <-].
  - destruct p; cbn [percent_format].
    + destruct (percent_format rest args) eqn:E; [discriminate|].
      intros [= <-]. exact (IH _ E).
    + destruct args as [|v args']; [now intros [= <-]|].
      destruct (percent_format rest args') eqn:E; [discriminate|].
      intros [= <-]. exact (IH _ E).
    + destruct args as [|[|z|s] args']; try (now intros [= <-]).
      destruct (percent_format rest args') eqn:E; [discriminate|].
      intros [= <-]. exact (IH _ E).
    + destruct (percent_format rest args) eqn:E; [discriminate|].
      intros [= <-]. exact (IH _ E).
Qed.

(** X11.  When [format % args] gives [message], [log_message] gives the
    logger exactly one record, [address - message]: the address and the
    message are arguments of the logging call, so a percent sign in
    either of them is kept as it is.  Nothing is sent on the connection. *)
Theorem X11_log_message_record
    (address : str) (format : list piece) (args : list value)
    (message : str) (st : State) :
  percent_format format args = Return message ->
  log_message address format args st =
    (Return tt,
     mkState (rfile st) (wire st)
       (log st ++ [address ++ lit " - " ++ message])
       (adapter_calls st) (library_calls st)).
Proof.
  intros Hfmt. unfold log_message, bind, lift. rewrite Hfmt.
  unfold logger_info_args. cbn [percent_format str_of_value].
  rewrite app_nil_r. reflexivity.
Qed.

Lemma X11_log_message_record_witness :
  log_message (lit "127.0.0.1") access_format
    [VStr (lit "GET /50%25 HTTP/1.1"); VStr (lit "400"); VStr (lit "-")]
    (mkState [] [] [] [] []) =
    (Return tt,
     mkState [] []
       [lit "127.0.0.1" ++ lit " - "
        ++ ([0x22] ++ lit "GET /50%25 HTTP/1.1" ++ [0x22; 0x20]
            ++ lit "400" ++ lit " " ++ lit "-")]
       [] []).
Proof.
  exact (X11_log_message_record (lit "127.0.0.1") access_format
           [VStr (lit "GET /50%25 HTTP/1.1"); VStr (lit "400"); VStr (lit "-")]
           ([0x22] ++ lit "GET /50%25 HTTP/1.1" ++ [0x22; 0x20]
            ++ lit "400" ++ lit " " ++ lit "-")
           (mkState [] [] [] [] []) eq_refl).
Defined.

(** X12.  When the number of arguments differs from the number of
    conversions of the format, [log_message] raises [TypeError] at line
    78 before the logger is called: nothing is logged. *)
Theorem X12_log_message_arity
    (address : str) (format : list piece) (args : list value) (st : State) :
  conversions format <> List.length args ->
  exists e,
    log_message address format args st = (Raise e, st)
    /\ exn_class e = "TypeError"%string.
Proof.
  intros Harity. unfold log_message, bind, lift.
  destruct (percent_format format args) as [m|e] eqn:E.
  - elim Harity. exact (percent_format_arity _ _ _ E).
  - exists e. split; [reflexivity|]. exact (percent_format_type_error _ _ _ E).
Qed.

Lemma X12_log_message_arity_witness :
  exists e,
    log_message (lit "127.0.0.1") access_format [VStr (lit "400")]
      (mkState [] [] [] [] []) = (Raise e, mkState [] [] [] [] [])
    /\ exn_class e = "TypeError"%string.
Proof.
  exact (X12_log_message_arity (lit "127.0.0.1") access_format
           [VStr (lit "400")] (mkState [] [] [] [] [])
           ltac:(discriminate)).
Defined.

(* ================================================================= *)
(** * Properties of the extracted text *)

Lemma extract_text_opened
    (env : Env) (lib : Library) (pdf_bytes : bytes)
    (pages : list Page) (texts : list (option str)) (st : State) :
  selected_library env = Some lib ->
  open_document lib pdf_bytes = Return pages ->
  read_pages pages = Return texts ->
  exists library,
    PDF_LIBRARY env = Some library
    /\ extract_text env pdf_bytes st =
         (Return
            (success_result
               (strip (join double_newline (Spec.segments texts)))
               (Z.of_nat (List.length pages)) library),
          mkState (rfile st) (wire st) (log st)
            (adapter_calls st ++ [pdf_bytes])
            (library_calls st ++ [(library, pdf_bytes)])).
Proof.
  intros Hsel Hopen Hread.
  rewrite extract_text_run. unfold adapter_result, adapter_opens, run_library.
  rewrite Hsel, Hopen, Hread, (read_pages_length _ _ Hread).
  unfold selected_library in Hsel. unfold PDF_LIBRARY.
  destruct (pypdf env).
  - now eexists.
  - destruct (pdfplumber env); [now eexists | discriminate].
Qed.

Lemma lstrip_whitespace (s : str) : forallb isspace s = true -> lstrip s = [].
Proof.
  induction s as [|c s IH]; [reflexivity|].
  cbn [forallb lstrip]. intros H. apply andb_true_iff in H as [Hc Hs].
  rewrite Hc. exact (IH Hs).
Qed.

Lemma join_whitespace (parts : list str) :
  Forall (fun p => forallb isspace p = true) parts ->
  forallb isspace (join double_newline parts) = true.
Proof.
  induction parts as [|p rest IH]; intros H; [reflexivity|].
  inversion H as [|? ? Hp Hrest]; subst.
  destruct rest as [|q rest']; [exact Hp|].
  change (join double_newline (p :: q :: rest'))
    with (p ++ double_newline ++ join double_newline (q :: rest')).
  rewrite !forallb_app, Hp, (IH Hrest). reflexivity.
Qed.

Lemma segments_whitespace (texts : list (option str)) :
  Forall (fun t => match t with
                   | Some s => forallb isspace s = true
                   | None => True
                   end) texts ->
  Forall (fun p => forallb isspace p = true) (Spec.segments texts).
Proof.
  induction 1 as [|t texts Ht _ IH]; [constructor|].
  destruct t as [[|c s]|]; cbn [Spec.segments flat_map app]; try exact IH.
  constructor; [exact Ht | exact IH].
Qed.

(** X13.  A document that opens but whose pages give no text, or only
    whitespace, is not an error: the result is a success with
    [text = ""] and [pages] the number of pages. *)
Theorem X13_document_without_text
    (env : Env) (lib : Library) (pdf_bytes : bytes)
    (pages : list Page) (texts : list (option str)) (st : State) :
  selected_library env = Some lib ->
  open_document lib pdf_bytes = Return pages ->
  read_pages pages = Return texts ->
  Forall (fun t => match t with
                   | Some s => forallb isspace s = true
                   | None => True
                   end) texts ->
  exists library st',
    PDF_LIBRARY env = Some library
    /\ extract_text env pdf_bytes st =
         (Return (success_result [] (Z.of_nat (List.length pages)) library),
          st').
Proof.
  intros Hsel Hopen Hread Hblank.
  destruct (extract_text_opened env lib pdf_bytes pages texts st
              Hsel Hopen Hread) as (library & Hlib & Hrun).
  exists library. eexists. split; [exact Hlib|].
  rewrite Hrun. unfold strip, rstrip.
  now rewrite (lstrip_whitespace _
                 (join_whitespace _ (segments_whitespace _ Hblank))).
Qed.

Lemma X13_document_without_text_witness :
  exists library st',
    PDF_LIBRARY
      (mkEnv (Some (mkLibrary (fun _ =>
                Return [mkPage (Return None);
                        mkPage (Return (Some (lit " ")));
                        mkPage (Return (Some []))]))) None)
    = Some library
    /\ extract_text
         (mkEnv (Some (mkLibrary (fun _ =>
                   Return [mkPage (Return None);
                           mkPage (Return (Some (lit " ")));
                           mkPage (Return (Some []))]))) None)
         Examples.one_byte (mkState [] [] [] [] []) =
         (Return (success_result [] 3 library), st').
Proof.
  exact (X13_document_without_text
           (mkEnv (Some (mkLibrary (fun _ =>
                     Return [mkPage (Return None);
                             mkPage (Return (Some (lit " ")));
                             mkPage (Return (Some []))]))) None)
           (mkLibrary (fun _ =>
              Return [mkPage (Return None);
                      mkPage (Return (Some (lit " ")));
                      mkPage (Return (Some []))]))
           Examples.one_byte
           [mkPage (Return None); mkPage (Return (Some (lit " ")));
            mkPage (Return (Some []))]
           [None; Some (lit " "); Some []]
           (mkState [] [] [] [] [])
           eq_refl eq_refl eq_refl
           ltac:(repeat constructor)).
Defined.

(** X14.  Trimming removes whitespace at the two ends of the joined
    text and nothing else: the joined text is the [text] of the result
    between a run of whitespace and another one, so the texts of the
    pages and the separators between them are kept as they are. *)
Theorem X14_only_outer_whitespace_removed
    (env : Env) (lib : Library) (pdf_bytes : bytes)
    (pages : list Page) (texts : list (option str)) (st : State) :
  selected_library env = Some lib ->
  open_document lib pdf_bytes = Return pages ->
  read_pages pages = Return texts ->
  exists text library st' before after,
    extract_text env pdf_bytes st =
      (Return (success_result text (Z.of_nat (List.length pages)) library),
       st')
    /\ join double_newline (Spec.segments texts) = before ++ text ++ after
    /\ forallb isspace before = true
    /\ forallb isspace after = true.
Proof.
  intros Hsel Hopen Hread.
  destruct (extract_text_opened env lib pdf_bytes pages texts st
              Hsel Hopen Hread) as (library & _ & Hrun).
  destruct (strip_decompose (join double_newline (Spec.segments texts)))
    as (l & r & Hs & Hl & Hr & _).
  exists (strip (join double_newline (Spec.segments texts))), library.
  eexists. exists l, r. split; [exact Hrun|]. auto.
Qed.

Lemma X14_only_outer_whitespace_removed_witness :
  exists text library st' before after,
    extract_text Examples.hello_env Examples.one_byte
      (initial_state Examples.hello_env) =
      (Return (success_result text 4 library), st')
    /\ lit " Hello" ++ double_newline ++ lit "World  "
       = before ++ text ++ after
    /\ forallb isspace before = true
    /\ forallb isspace after = true.
Proof.
  exact (X14_only_outer_whitespace_removed Examples.hello_env
           Examples.hello_library Examples.one_byte Examples.hello_pages
           [Some (lit " Hello"); Some []; None; Some (lit "World  ")]
           (initial_state Examples.hello_env) eq_refl eq_refl eq_refl).
Defined.
